(** * go-metar: conversion helpers and the METAR fetcher

    A shallow embedding of [helpers.go] and [metar.go].

    Go's [float64] is IEEE 754 binary64, which is what Rocq's primitive
    [float] is, so the helpers are embedded over [float] with the same
    operations the source uses ([*] and [<]); a decimal literal denotes the
    nearest binary64 value in both languages.  Go's [int] and [int64] are
    embedded in [Z]: the code only compares them, so no wrap-around arises. *)

From Stdlib Require Import ZArith QArith List String Ascii Bool Lia.
From Stdlib Require Import Floats.
Import ListNotations.

Close Scope Q_scope.

Set Warnings "-inexact-float".

(* ================================================================== *)
(** ** helpers.go *)

Section Helpers.
Local Open Scope float_scope.

(** InHgTohPa converts "inch of mercury" to "hectopascal" *)
Definition InHgTohPa (inHg : float) : float :=
  inHg * 33.8638866667.

(** KtsToMs converts "knots" to "meters per second" *)
Definition KtsToMs (kts : float) : float :=
  kts * 0.514444.

(** KtsToBft converts "knots" to "bft".  The source is an expression-less
    [switch]: the first case whose condition holds returns. *)
Definition KtsToBft (kts : float) : Z :=
  if kts <? 1 then 0%Z
  else if kts <? 4 then 1%Z
  else if kts <? 7 then 2%Z
  else if kts <? 11 then 3%Z
  else if kts <? 16 then 4%Z
  else if kts <? 22 then 5%Z
  else if kts <? 28 then 6%Z
  else if kts <? 34 then 7%Z
  else if kts <? 41 then 8%Z
  else if kts <? 48 then 9%Z
  else if kts <? 56 then 10%Z
  else if kts <? 64 then 11%Z
  else 12%Z.

(** StatMileToKm converts "statute miles" to "kilometers" *)
Definition StatMileToKm (sm : float) : float :=
  sm * 1.60934.

(** MbTohPa converts "millibar" to "hectopascal" *)
Definition MbTohPa (mb : float) : float :=
  mb * 0.1.

End Helpers.

(** The threshold table as the specification words it: a list of
    (exclusive upper bound, band), read top to bottom, with band 12 for
    whatever no row takes.  This one follows the specification, not the
    source; [KtsToBft] above is compared with it. *)
Definition row (bound : float) (band : Z) : float * Z := (bound, band).

Definition bft_thresholds : list (float * Z) :=
  [ row 1 0; row 4 1; row 7 2; row 11 3; row 16 4; row 22 5; row 28 6;
    row 34 7; row 41 8; row 48 9; row 56 10; row 64 11 ].

Fixpoint band_of_table (rows : list (float * Z)) (kts : float) : Z :=
  match rows with
  | [] => 12%Z
  | (bound, band) :: rows' =>
      if (kts <? bound)%float then band else band_of_table rows' kts
  end.

(** [lo <= kts < hi] with Go's comparisons. *)
Definition within (lo hi kts : float) : bool :=
  ((lo <=? kts) && (kts <? hi))%float.

(** The number a finite binary64 value stands for: [m * 2 ^ e] with its
    sign.  Infinities and NaN stand for none. *)
Definition SF2Q (x : spec_float) : option Q :=
  match x with
  | S754_zero _ => Some 0%Q
  | S754_finite s m e =>
      Some ((if s then -1 else 1) * inject_Z (Zpos m) * 2 ^ e)%Q
  | S754_infinity _ | S754_nan => None
  end.

Definition float_value (x : float) : option Q := SF2Q (Prim2SF x).

(** [f] returns the product of its input and the value [mc * 2 ^ ec],
    rounded to a nearest binary64 value: whenever the input [m * 2 ^ e]
    and the result [m' * 2 ^ e'] are finite, the result has the sign of the
    input, its unit [2 ^ e'] is no finer than that of the exact product
    [m * mc * 2 ^ (e + ec)], and it is within half that unit of it.  In
    units of [2 ^ (e + ec)] all the numbers are integers. *)
Definition nearest_product (f : float -> float) (mc : positive) (ec : Z)
  : Prop :=
  forall (x : float) (s : bool) (m : positive) (e : Z)
         (s' : bool) (m' : positive) (e' : Z),
    Prim2SF x = S754_finite s m e ->
    Prim2SF (f x) = S754_finite s' m' e' ->
    s' = s /\ (e + ec <= e')%Z /\
    (2 * Z.abs (Zpos m' * 2 ^ (e' - (e + ec)) - Zpos m * Zpos mc)
     <= 2 ^ (e' - (e + ec)))%Z.

(** What a shift record of the rounding procedure says about [M] after
    [k] shifts to the right: the quotient it holds, and where the
    remainder lies with respect to the half. *)
Definition shifted (M k : Z) (mrs : shr_record) : Prop :=
  exists R : Z,
    (M = shr_m mrs * 2 ^ k + R /\ 0 <= R < 2 ^ k /\
     match shr_r mrs, shr_s mrs with
     | false, false => R = 0
     | false, true => 0 < R /\ 2 * R < 2 ^ k
     | true, false => 2 * R = 2 ^ k
     | true, true => 2 ^ k < 2 * R
     end)%Z.

(* ================================================================== *)
(** ** metar.go: data *)

Local Open Scope string_scope.

Definition apiSource : string :=
  "https://www.aviationweather.gov/adds/dataserver_current/httpparam?dataSource=metars&requestType=retrieve&format=xml&stationString=%s&hoursBeforeNow=2&mostRecent=true".

(** [xml.Name] *)
Record xml_Name : Type := {
  Space : string;
  Local : string
}.

(** [time.Time]: an instant, as seconds and nanoseconds since the Unix
    epoch, and the offset of its zone. *)
Record time_Time : Type := {
  unixSec : Z;
  nsec : Z;
  zoneOffset : Z
}.

(** QualityControlFlags provide useful information about the METAR
    station(s) that provide the data. *)
Record QualityControlFlags : Type := {
  QualityControlFlags_XMLName : xml_Name;
  NoSignal : bool
}.

(** SkyCover defines and explains possible sky coverage situations *)
Definition SkyCover : Type := string.

Definition SkyCoverSKC : SkyCover := "SKC".
Definition SkyCoverCLR : SkyCover := "CLR".
Definition SkyCoverNSC : SkyCover := "NSC".
Definition SkyCoverFEW : SkyCover := "FEW".
Definition SkyCoverSCT : SkyCover := "SCT".
Definition SkyCoverBKN : SkyCover := "BKN".
Definition SkyCoverOVC : SkyCover := "OVC".
Definition SkyCoverCAVOK : SkyCover := "CAVOK".

(** FlightCategory defines and explains possible flight category
    situations *)
Definition FlightCategory : Type := string.

Definition FlightCategoryVFR : FlightCategory := "VFR".
Definition FlightCategoryMVFR : FlightCategory := "MVFR".
Definition FlightCategoryIFR : FlightCategory := "IFR".
Definition FlightCategoryLIFR : FlightCategory := "LIFR".

(** The anonymous struct of the field [SkyCondition]. *)
Record SkyCondition_t : Type := {
  SkyCondition_SkyCover : SkyCover
}.

(** Result holds all the data from the METAR request *)
Record Result : Type := {
  XMLName : xml_Name;
  RawText : string;
  StationID : string;
  ObservationTime : time_Time;
  Latitude : float;
  Longitude : float;
  Temperature : float;
  Dewpoint : float;
  WindDirDegrees : Z;
  WindSpeed : Z;
  WindGust : Z;
  VisibilityStatute : float;
  Altimeter : float;
  SeaLevelPressure : float;
  Result_QualityControlFlags : QualityControlFlags;
  WXString : string;
  SkyCondition : SkyCondition_t;
  Result_FlightCategory : FlightCategory;
  MetarType : string;
  Elevation : float
}.

(** The anonymous struct of the field [Data] of [response]. *)
Record response_Data : Type := {
  NumResults : Z;
  Results : list Result
}.

Record response : Type := {
  response_XMLName : xml_Name;
  Data : response_Data
}.

(** Go's [error] values: the ones this package makes with [errors.New],
    and the ones its collaborators (net/http, encoding/xml) hand over,
    which it passes on as they are. *)
Inductive error : Type :=
| errors_New (text : string)
| foreign_error (origin text : string).

(** What a call comes to: it returns, or it panics.  The one run-time
    panic in this package's own code is the bounds check of a slice
    index. *)
Inductive outcome (A : Type) : Type :=
| Return (a : A)
| Panic (msg : string).
Arguments Return {A} a.
Arguments Panic {A} msg.

(** [s[i]] on a slice. *)
Definition index {A : Type} (s : list A) (i : nat) : outcome A :=
  match nth_error s i with
  | Some x => Return x
  | None => Panic "index out of range"
  end.

(** [len(s)] *)
Definition len {A : Type} (s : list A) : Z := Z.of_nat (List.length s).

(** The part of [fmt.Sprintf] at work here: operands that are strings, the
    verbs [%s] and [%%]; any other character of the format is copied.  A
    [%s] without an operand and operands left over are reported the way
    fmt does. *)
Fixpoint join_extra (args : list string) : string :=
  match args with
  | [] => ""
  | [a] => "string=" ++ a
  | a :: rest => "string=" ++ a ++ ", " ++ join_extra rest
  end.

Fixpoint fmt_Sprintf (format : string) (args : list string) : string :=
  match format with
  | EmptyString =>
      match args with
      | [] => ""
      | _ :: _ => "%!(EXTRA " ++ join_extra args ++ ")"
      end
  | String "%" (String "s" rest) =>
      match args with
      | a :: args' => a ++ fmt_Sprintf rest args'
      | [] => "%!s(MISSING)" ++ fmt_Sprintf rest []
      end
  | String "%" (String "%" rest) => String "%" (fmt_Sprintf rest args)
  | String c rest => String c (fmt_Sprintf rest args)
  end.

(** [http.Response], as far as it is read here. *)
Record Response : Type := {
  StatusCode : Z;
  Body : string
}.

(* ================================================================== *)
(** ** metar.go: FetchCurrentStationWeather *)

Section Fetch.

(** Values of Go's [*http.Request], [nil] among them. *)
Variable Request : Type.

(** [http.NewRequest(method, url, nil)]: the request and the error it
    returns.  URL parsing is net/http's; the function below drops the
    error and passes the request on as it is. *)
Variable http_NewRequest : string -> string -> Request * option error.

(** What is on the other side of the wire. *)
Variable Net : Type.

(** A client's [Do]: it returns a response or an error, or it panics, as
    net/http's does when it is handed the [nil] request that comes with an
    error of [http.NewRequest]; and the network afterwards.  The caller
    below reads the response only when there is no error, so a response
    that comes together with an error is not told apart from the error
    alone. *)
Definition Client : Type :=
  Request -> Net -> outcome (Response + error) * Net.

(** [xml.NewDecoder(body).Decode(r)] on a fresh [&response{}]: the filled
    envelope, or the decoder's error. *)
Variable xml_Decode : string -> response + error.

(** The package variable [HTTPClient] ("you can insert your own"), the
    network, and the requests handed to the client so far, oldest first. *)
Record World : Type := {
  HTTPClient : Client;
  net : Net;
  sent : list Request
}.

(** [HTTPClient.Do(req)] *)
Definition HTTPClient_Do (req : Request) (w : World)
  : outcome (Response + error) * World :=
  let (res, n) := HTTPClient w req (net w) in
  (res, {| HTTPClient := HTTPClient w; net := n; sent := (sent w ++ [req])%list |}).

(** FetchCurrentStationWeather fetches the last result from the specified
    station if it was reported during last 2 hours.

    The Go function returns a pair, a [*Result] and an [error]; either
    may be [nil], which is [None] here.  It has no [recover]: a panic of
    the client ends the call. *)
Definition FetchCurrentStationWeather (station : string) (w : World)
  : outcome (option Result * option error) * World :=
  let (req, _) := http_NewRequest "GET" (fmt_Sprintf apiSource [station]) in
  let (res, w) := HTTPClient_Do req w in
  match res with
  | Panic msg => (Panic msg, w)
  | Return (inr err) => (Return (None, Some err), w)
  | Return (inl res) =>
      match xml_Decode (Body res) with
      | inr err => (Return (None, Some err), w)
      | inl r =>
          if negb (NumResults (Data r) =? len (Results (Data r)))%Z then
            (Return (None, Some (errors_New "Got inconsistent number of results")), w)
          else if (NumResults (Data r) =? 0)%Z then
            (Return (None, Some (errors_New "Did not find any data for your station")), w)
          else
            match index (Results (Data r)) 0 with
            | Return first => (Return (Some first, None), w)
            | Panic msg => (Panic msg, w)
            end
      end
  end.

(** The request the function hands to the client for a station, and the
    client's answer to it: names for the statements below. *)
Definition request_for (station : string) : Request :=
  fst (http_NewRequest "GET" (fmt_Sprintf apiSource [station])).

Definition answer (station : string) (w : World)
  : outcome (Response + error) :=
  fst (HTTPClient w (request_for station) (net w)).

(** The envelope the decoder yields for the answer, if both succeed. *)
Definition decoded (station : string) (w : World) : option response :=
  match answer station w with
  | Return (inl res) =>
      match xml_Decode (Body res) with
      | inl r => Some r
      | inr _ => None
      end
  | _ => None
  end.

End Fetch.

Arguments HTTPClient {Request Net} w.
Arguments net {Request Net} w.
Arguments sent {Request Net} w.

(* ================================================================== *)
(** ** A concrete exchange

    Requests as (method, URL) pairs, a network without state, a client
    that answers every request alike and a decoder that yields a given
    envelope: the setting of the examples below. *)

Definition sample_Request : Type := (string * string)%type.

Definition sample_NewRequest (method url : string)
  : sample_Request * option error :=
  ((method, url), None).

Definition sample_client (a : Response + error) : Client sample_Request unit :=
  fun _ n => (Return a, n).

Definition sample_world (a : Response + error) : World sample_Request unit :=
  {| HTTPClient := sample_client a; net := tt; sent := [] |}.

Definition sample_decoder (d : response + error) : string -> response + error :=
  fun _ => d.

Definition sample_Response : Response :=
  {| StatusCode := 200; Body := "<response><data/></response>" |}.

(** An observation of EDDH taken at the given instant. *)
Definition sample_Result (raw : string) (at_sec : Z) : Result :=
  {| XMLName := {| Space := ""; Local := "METAR" |};
     RawText := raw;
     StationID := "EDDH";
     ObservationTime := {| unixSec := at_sec; nsec := 0; zoneOffset := 0 |};
     Latitude := 53.63;
     Longitude := 10.0;
     Temperature := 12.0;
     Dewpoint := 9.0;
     WindDirDegrees := 250;
     WindSpeed := 11;
     WindGust := 0;
     VisibilityStatute := 6.21;
     Altimeter := 29.940945;
     SeaLevelPressure := 1014.0;
     Result_QualityControlFlags :=
       {| QualityControlFlags_XMLName :=
            {| Space := ""; Local := "quality_control_flags" |};
          NoSignal := false |};
     WXString := "";
     SkyCondition := {| SkyCondition_SkyCover := SkyCoverFEW |};
     Result_FlightCategory := FlightCategoryVFR;
     MetarType := "METAR";
     Elevation := 13.0 |}.

Definition older : Result :=
  sample_Result "EDDH 301220Z 25011KT 9999 FEW030 12/09 Q1014" 1793362800.

Definition newer : Result :=
  sample_Result "EDDH 301250Z 25011KT 9999 FEW030 12/09 Q1014" 1793364600.

Definition sample_envelope (n : Z) (rs : list Result) : response :=
  {| response_XMLName := {| Space := ""; Local := "response" |};
     Data := {| NumResults := n; Results := rs |} |}.

(** *** An exchange in the manner of net/http

    [http.NewRequest] parses the URL and refuses one that holds a control
    byte: it returns [nil] and an error.  [Do] reads its request and
    panics on [nil]. *)

Definition is_control (c : ascii) : bool :=
  ((nat_of_ascii c <? 32) || (nat_of_ascii c =? 127))%nat.

Fixpoint has_control (s : string) : bool :=
  match s with
  | EmptyString => false
  | String c s' => is_control c || has_control s'
  end.

Definition nilable_Request : Type := option (string * string).

Definition parsing_NewRequest (method url : string)
  : nilable_Request * option error :=
  if has_control url
  then (None, Some (foreign_error "net/url" "invalid control character in URL"))
  else (Some (method, url), None).

Definition dereferencing_client (a : Response + error)
  : Client nilable_Request unit :=
  fun req n =>
    match req with
    | None => (Panic "invalid memory address or nil pointer dereference", n)
    | Some _ => (Return a, n)
    end.

Definition dereferencing_world (a : Response + error)
  : World nilable_Request unit :=
  {| HTTPClient := dereferencing_client a; net := tt; sent := [] |}.

(* ================================================================== *)
(** ** The order of binary64 values *)

Module FloatOrder.

(** [SFcompare] orders by sign, then exponent, then mantissa; these are its
    order properties, on the specification side of the float axioms. *)

Ltac sf_cases :=
  repeat match goal with
  | x : spec_float |- _ => destruct x as [[]|[]| |[] ? ?]
  end;
  simpl; intros; try discriminate; try reflexivity.

Ltac cmp_cases :=
  change (PosDef.Pos.compare_cont Eq) with Pos.compare in *;
  repeat match goal with
  | H : context [(?a ?= ?b)%Z] |- _ =>
      destruct (Z.compare_spec a b); simpl in H; try discriminate
  | |- context [(?a ?= ?b)%Z] =>
      destruct (Z.compare_spec a b); simpl
  | H : context [(?a ?= ?b)%positive] |- _ =>
      destruct (Pos.compare_spec a b); simpl in H; try discriminate
  | |- context [(?a ?= ?b)%positive] =>
      destruct (Pos.compare_spec a b); simpl
  end;
  try reflexivity; try lia.

Lemma SFcompare_antisym (x y : spec_float) :
  SFcompare y x = option_map CompOpp (SFcompare x y).
Proof.
  sf_cases; cmp_cases.
Qed.

Lemma SFcompare_lt_trans (x y z : spec_float) :
  SFcompare x y = Some Lt -> SFcompare y z = Some Lt ->
  SFcompare x z = Some Lt.
Proof.
  sf_cases; cmp_cases.
Qed.

Lemma SFcompare_eq_lt (x y z : spec_float) :
  SFcompare x y = Some Eq -> SFcompare y z = Some Lt ->
  SFcompare x z = Some Lt.
Proof.
  sf_cases; cmp_cases.
Qed.

Lemma SFcompare_lt_eq (x y z : spec_float) :
  SFcompare x y = Some Lt -> SFcompare y z = Some Eq ->
  SFcompare x z = Some Lt.
Proof.
  sf_cases; cmp_cases.
Qed.


Local Open Scope float_scope.

(** The same on [float], through [ltb_spec] and [leb_spec]. *)

Lemma ltb_compare (x y : float) :
  (x <? y) = true <-> SFcompare (Prim2SF x) (Prim2SF y) = Some Lt.
Proof.
  rewrite ltb_spec. unfold SFltb.
  destruct (SFcompare (Prim2SF x) (Prim2SF y)) as [[]|]; split; congruence.
Qed.

Lemma leb_compare (x y : float) :
  (x <=? y) = true <->
  SFcompare (Prim2SF x) (Prim2SF y) = Some Lt \/
  SFcompare (Prim2SF x) (Prim2SF y) = Some Eq.
Proof.
  rewrite leb_spec. unfold SFleb.
  destruct (SFcompare (Prim2SF x) (Prim2SF y)) as [[]|];
    split; intros; try tauto; try congruence;
    match goal with H : _ \/ _ |- _ => destruct H; congruence end.
Qed.

Lemma leb_ltb_trans (x y z : float) :
  (x <=? y) = true -> (y <? z) = true -> (x <? z) = true.
Proof.
  rewrite leb_compare, !ltb_compare. intros [Hxy|Hxy] Hyz.
  - eapply SFcompare_lt_trans; eassumption.
  - eapply SFcompare_eq_lt; eassumption.
Qed.

Lemma ltb_leb_trans (x y z : float) :
  (x <? y) = true -> (y <=? z) = true -> (x <? z) = true.
Proof.
  rewrite leb_compare, !ltb_compare. intros Hxy [Hyz|Hyz].
  - eapply SFcompare_lt_trans; eassumption.
  - eapply SFcompare_lt_eq; eassumption.
Qed.

Lemma leb_not_ltb (x y : float) :
  (y <=? x) = true -> (x <? y) = false.
Proof.
  rewrite leb_compare. intros H.
  destruct (x <? y) eqn:E; [|reflexivity].
  apply ltb_compare in E.
  rewrite (SFcompare_antisym (Prim2SF y) (Prim2SF x)) in E.
  destruct H as [H|H]; rewrite H in E; discriminate.
Qed.

(** A bound at or above [lo] is not undercut by a value at or above [lo]. *)
Lemma above_not_ltb (c lo x : float) :
  (c <=? lo) = true -> (lo <=? x) = true -> (x <? c) = false.
Proof.
  intros Hc Hx. destruct (x <? c) eqn:E; [|reflexivity].
  pose proof (ltb_leb_trans _ _ _ E Hc) as H.
  rewrite (leb_not_ltb _ _ Hx) in H. discriminate.
Qed.

(** Values that are numbers compare one way or the other. *)
Lemma not_ltb_leb (x y : float) :
  is_nan x = false -> is_nan y = false ->
  (x <? y) = false -> (y <=? x) = true.
Proof.
  unfold is_nan. rewrite !eqb_spec, ltb_spec, leb_spec.
  unfold SFeqb, SFltb, SFleb.
  rewrite (SFcompare_antisym (Prim2SF x) (Prim2SF y)).
  destruct (Prim2SF x) as [[]|[]| |[] ? ?], (Prim2SF y) as [[]|[]| |[] ? ?];
    simpl; try discriminate; try reflexivity;
    change (PosDef.Pos.compare_cont Eq) with Pos.compare;
    intros _ _;
    repeat match goal with
    | |- context [(?a ?= ?b)%Z] => destruct (a ?= b)%Z; simpl
    | |- context [(?a ?= ?b)%positive] => destruct (a ?= b)%positive; simpl
    end; congruence.
Qed.

End FloatOrder.

(* ================================================================== *)
(** ** helpers.go: properties *)

Section HelpersFacts.
Import FloatOrder.
Local Open Scope float_scope.

(** With [lo <= x] at hand, every test [x < c] against a bound [c <= lo]
    is false. *)
Ltac clear_below Hlo :=
  match type of Hlo with
  | (?lo <=? ?x) = true =>
      repeat match goal with
      | |- context [x <? ?c] =>
          rewrite (above_not_ltb c lo x (eq_refl true) Hlo)
      end
  end.

Ltac split_band H :=
  unfold within in H; apply andb_true_iff in H;
  let Hlo := fresh "Hlo" in
  let Hhi := fresh "Hhi" in
  destruct H as [Hlo Hhi];
  unfold KtsToBft;
  clear_below Hlo;
  rewrite ?Hhi; reflexivity.

Lemma KtsToBft_refines_table (kts : float) :
  KtsToBft kts = band_of_table bft_thresholds kts.
Proof. reflexivity. Qed.

Lemma KtsToBft_below_one (kts : float) :
  (kts <? 1) = true -> KtsToBft kts = 0%Z.
Proof. intros H. unfold KtsToBft. rewrite H. reflexivity. Qed.

Lemma KtsToBft_from_64 (kts : float) :
  (64 <=? kts) = true -> KtsToBft kts = 12%Z.
Proof.
  intros Hlo. unfold KtsToBft. clear_below Hlo. reflexivity.
Qed.

(** Every value that is a number lies in one of the thirteen bands. *)
Lemma bands_cover (kts : float) :
  is_nan kts = false ->
  (kts <? 1) = true \/ within 1 4 kts = true \/ within 4 7 kts = true \/
  within 7 11 kts = true \/ within 11 16 kts = true \/
  within 16 22 kts = true \/ within 22 28 kts = true \/
  within 28 34 kts = true \/ within 34 41 kts = true \/
  within 41 48 kts = true \/ within 48 56 kts = true \/
  within 56 64 kts = true \/ (64 <=? kts) = true.
Proof.
  intros Hn. unfold within.
  destruct (kts <? 1) eqn:E1; [now left|right].
  apply (not_ltb_leb kts 1 Hn (eq_refl false)) in E1; rewrite E1; simpl.
  repeat match goal with
  | |- (?x <? ?c) = true \/ _ =>
      let E := fresh "E" in
      destruct (x <? c) eqn:E; [now left|right];
      apply (not_ltb_leb x c Hn (eq_refl false)) in E; rewrite ?E; simpl
  end.
  reflexivity.
Qed.

(** C4.  KtsToBft is the step function of the threshold table: it takes the
    first row of the table whose bound exceeds the input and band 12 when
    none does; read as intervals, an input below 1 gives 0, one in [1,4)
    gives 1, [4,7) 2, [7,11) 3, [11,16) 4, [16,22) 5, [22,28) 6, [28,34) 7,
    [34,41) 8, [41,48) 9, [48,56) 10, [56,64) 11, and one at or above 64
    gives 12; every input that is a number is in one of these intervals;
    every negative input gives 0; and KtsToBft(5) = 2, KtsToBft(0.5) = 0,
    KtsToBft(63.9) = 11, KtsToBft(64) = 12. *)
Theorem KtsToBft_threshold_table (kts : float) :
  KtsToBft kts = band_of_table bft_thresholds kts
  /\ ((kts <? 1) = true -> KtsToBft kts = 0%Z)
  /\ (within 1 4 kts = true -> KtsToBft kts = 1%Z)
  /\ (within 4 7 kts = true -> KtsToBft kts = 2%Z)
  /\ (within 7 11 kts = true -> KtsToBft kts = 3%Z)
  /\ (within 11 16 kts = true -> KtsToBft kts = 4%Z)
  /\ (within 16 22 kts = true -> KtsToBft kts = 5%Z)
  /\ (within 22 28 kts = true -> KtsToBft kts = 6%Z)
  /\ (within 28 34 kts = true -> KtsToBft kts = 7%Z)
  /\ (within 34 41 kts = true -> KtsToBft kts = 8%Z)
  /\ (within 41 48 kts = true -> KtsToBft kts = 9%Z)
  /\ (within 48 56 kts = true -> KtsToBft kts = 10%Z)
  /\ (within 56 64 kts = true -> KtsToBft kts = 11%Z)
  /\ ((64 <=? kts) = true -> KtsToBft kts = 12%Z)
  /\ (is_nan kts = false ->
      (kts <? 1) = true \/ within 1 4 kts = true \/ within 4 7 kts = true \/
      within 7 11 kts = true \/ within 11 16 kts = true \/
      within 16 22 kts = true \/ within 22 28 kts = true \/
      within 28 34 kts = true \/ within 34 41 kts = true \/
      within 41 48 kts = true \/ within 48 56 kts = true \/
      within 56 64 kts = true \/ (64 <=? kts) = true)
  /\ ((kts <? 0) = true -> KtsToBft kts = 0%Z)
  /\ KtsToBft 5 = 2%Z /\ KtsToBft 0.5 = 0%Z
  /\ KtsToBft 63.9 = 11%Z /\ KtsToBft 64 = 12%Z.
Proof.
  split; [apply KtsToBft_refines_table|].
  split; [apply KtsToBft_below_one|].
  do 11 (split; [intros H; split_band H|]).
  split; [apply KtsToBft_from_64|].
  split; [apply bands_cover|].
  split.
  - intros H. apply KtsToBft_below_one.
    apply (ltb_leb_trans kts 0 1 H). reflexivity.
  - repeat split.
Qed.

(** The table at work on 5 knots, which lies in [4,7). *)
Lemma KtsToBft_threshold_table_witness :
  within 4 7 5 = true /\ KtsToBft 5 = 2%Z.
Proof.
  split; [reflexivity|].
  apply (proj1 (proj2 (proj2 (proj2 (KtsToBft_threshold_table 5))))).
  reflexivity.
Defined.

End HelpersFacts.

(* ================================================================== *)
(** ** Rounding of a product to the nearest representable value *)

Section RoundingError.
Local Open Scope Z_scope.

Variables prec emax : Z.
Hypothesis prec_pos : 0 < prec.

Lemma shifted_start (M : Z) : shifted M 0 (shr_record_of_loc M loc_Exact).
Proof. exists 0. simpl. lia. Qed.

Lemma shifted_shr_1 (M k : Z) (mrs : shr_record) :
  0 <= k -> 0 <= shr_m mrs ->
  shifted M k mrs -> shifted M (k + 1) (shr_1 mrs).
Proof.
  intros Hk Hm (R & HM & HR & Hloc).
  assert (E : 2 ^ (k + 1) = 2 * 2 ^ k)
    by (rewrite Z.pow_add_r, Z.pow_1_r; lia).
  unfold shifted. rewrite E. clear E.
  assert (HP : 0 < 2 ^ k) by (apply Z.pow_pos_nonneg; lia).
  set (P := 2 ^ k) in *. clearbody P.
  destruct mrs as [m r s]. cbn [shr_m shr_r shr_s] in *.
  destruct m as [|[p|p|]|p]; cbn [shr_1 shr_m shr_r shr_s]; try lia.
  - exists R. destruct r, s; cbn [orb]; lia.
  - exists (R + P). destruct r, s; cbn [orb]; lia.
  - exists R. destruct r, s; cbn [orb]; lia.
  - exists (R + P). destruct r, s; cbn [orb]; lia.
Qed.

Lemma shifted_iter (n : positive) (M k : Z) (mrs : shr_record) :
  0 <= k -> 0 <= shr_m mrs ->
  shifted M k mrs ->
  shifted M (k + Zpos n) (iter_pos shr_1 n mrs) /\
  0 <= shr_m (iter_pos shr_1 n mrs).
Proof.
  revert k mrs. induction n as [n IH|n IH|]; intros k mrs Hk Hm H; simpl.
  - pose proof (shifted_shr_1 M k mrs Hk Hm H) as H1.
    assert (Hm1 : 0 <= shr_m (shr_1 mrs)).
    { destruct mrs as [m r s]. destruct m as [|[p|p|]|p]; simpl in *; lia. }
    destruct (IH (k + 1) _ ltac:(lia) Hm1 H1) as [H2 Hm2].
    destruct (IH (k + 1 + Zpos n) _ ltac:(lia) Hm2 H2) as [H3 Hm3].
    split; [|exact Hm3].
    replace (k + Zpos n~1) with (k + 1 + Zpos n + Zpos n) by lia. exact H3.
  - destruct (IH k _ Hk Hm H) as [H2 Hm2].
    destruct (IH (k + Zpos n) _ ltac:(lia) Hm2 H2) as [H3 Hm3].
    split; [|exact Hm3].
    replace (k + Zpos n~0) with (k + Zpos n + Zpos n) by lia. exact H3.
  - split; [apply shifted_shr_1; assumption|].
    destruct mrs as [m r s]. destruct m as [|[p|p|]|p]; simpl in *; lia.
Qed.

(** [shr_fexp] on an exact non-negative [M]: a shift by some [k >= 0]. *)
Lemma shr_fexp_shifted (M e : Z) :
  0 <= M ->
  exists k,
    0 <= k /\
    snd (shr_fexp prec emax M e loc_Exact) = e + k /\
    shifted M k (fst (shr_fexp prec emax M e loc_Exact)) /\
    0 <= shr_m (fst (shr_fexp prec emax M e loc_Exact)) /\
    k = Z.max 0 (fexp prec emax (Zdigits2 M + e) - e).
Proof.
  intros HM. unfold shr_fexp, shr.
  destruct (fexp prec emax (Zdigits2 M + e) - e) as [|n|n] eqn:En.
  - exists 0. cbn [fst snd]. repeat split; try lia.
    + apply shifted_start.
    + exact HM.
  - exists (Zpos n). cbn [fst snd].
    destruct (shifted_iter n M 0 (shr_record_of_loc M loc_Exact)
                ltac:(lia) HM (shifted_start M)) as [H1 H2].
    repeat split; try lia; assumption.
  - exists 0. cbn [fst snd]. repeat split; try lia.
    + apply shifted_start.
    + exact HM.
Qed.

(** Rounding to nearest, ties to even, of what a shift record holds. *)
Lemma round_nearest_even_shifted (M k : Z) (mrs : shr_record) :
  0 <= k -> shifted M k mrs ->
  let q := round_nearest_even (shr_m mrs) (loc_of_shr_record mrs) in
  2 * Z.abs (q * 2 ^ k - M) <= 2 ^ k /\
  shr_m mrs <= q <= shr_m mrs + 1 /\
  (k = 0 -> q = M).
Proof.
  intros Hk (R & HM & HR & Hloc).
  assert (HP : 0 < 2 ^ k) by (apply Z.pow_pos_nonneg; lia).
  assert (H0 : k = 0 -> R = 0) by (intros ->; simpl in HR; lia).
  destruct mrs as [m r s]. cbn [shr_m shr_r shr_s] in *.
  set (P := 2 ^ k) in *.
  assert (HP1 : k = 0 -> P = 1) by (intros ->; reflexivity).
  clearbody P.
  destruct r, s; cbn [loc_of_shr_record round_nearest_even];
    try destruct (Z.even m); nia.
Qed.

Lemma digits2_pos_bounds (p : positive) :
  2 ^ (Zpos (digits2_pos p) - 1) <= Zpos p < 2 ^ Zpos (digits2_pos p).
Proof.
  induction p as [p IH|p IH|]; cbn [digits2_pos].
  - rewrite Pos2Z.inj_succ.
    replace (Z.succ (Zpos (digits2_pos p)) - 1)
      with (Z.succ (Zpos (digits2_pos p) - 1)) by lia.
    rewrite !Z.pow_succ_r by lia. lia.
  - rewrite Pos2Z.inj_succ.
    replace (Z.succ (Zpos (digits2_pos p)) - 1)
      with (Z.succ (Zpos (digits2_pos p) - 1)) by lia.
    rewrite !Z.pow_succ_r by lia. lia.
  - simpl. lia.
Qed.


(** After rounding a shifted mantissa, the second [shr_fexp] has nothing
    to do, unless the rounding carried into [2 ^ prec], which it halves. *)
Lemma second_shift (M : positive) (E k : Z) (mrs : shr_record) (q : Z) :
  k = Z.max 0 (fexp prec emax (Zdigits2 (Zpos M) + E) - E) ->
  shifted (Zpos M) k mrs ->
  0 <= shr_m mrs ->
  shr_m mrs <= q <= shr_m mrs + 1 ->
  (k = 0 -> q = Zpos M) ->
  let k2 := Z.max 0 (fexp prec emax (Zdigits2 q + (E + k)) - (E + k)) in
  k2 = 0 \/ (k2 = 1 /\ q = 2 ^ prec).
Proof.
  intros Hk (R & HM & HR & _) Hm Hq Hq0 k2.
  unfold fexp in *. change IntDef.Z.max with Z.max in *.
  change IntDef.Z.sub with Z.sub in *. change IntDef.Z.add with Z.add in *.
  cbn [Zdigits2] in Hk.
  pose proof (digits2_pos_bounds M) as [_ HMd].
  set (d := Zpos (digits2_pos M)) in *.
  assert (Hd : 0 < d) by (unfold d; lia).
  destruct (Z.eq_dec k 0) as [K0|K0].
  - left. subst k2. rewrite (Hq0 K0). cbn [Zdigits2]. fold d. lia.
  - assert (Hkpos : 0 < k) by lia.
    assert (Hk1 : k = Z.max (d + E - prec) (SpecFloat.emin prec emax) - E) by lia.
    assert (Hkd : d <= k + prec) by lia.
    assert (Hmin : SpecFloat.emin prec emax <= E + k) by lia.
    assert (HP : 0 < 2 ^ k) by (apply Z.pow_pos_nonneg; lia).
    assert (Hm_lt : shr_m mrs < 2 ^ prec).
    { assert (H2 : 2 ^ d <= 2 ^ (k + prec))
        by (apply Z.pow_le_mono_r; lia).
      rewrite Z.pow_add_r in H2 by lia.
      assert (H3 : shr_m mrs * 2 ^ k < 2 ^ k * 2 ^ prec) by lia.
      nia. }
    destruct q as [|p|p]; [left|idtac|lia].
    + subst k2. cbn [Zdigits2]. lia.
    + pose proof (digits2_pos_bounds p) as [Hlo Hhi].
      subst k2. cbn [Zdigits2].
      set (d2 := Zpos (digits2_pos p)) in *.
      assert (Hd2 : 0 < d2) by (unfold d2; lia).
      destruct (Z.eq_dec (Zpos p) (2 ^ prec)) as [Eq|Ne].
      * right. split; [|exact Eq].
        rewrite Eq in Hlo, Hhi.
        apply Z.pow_le_mono_r_iff in Hlo; [|lia|lia].
        apply Z.pow_lt_mono_r_iff in Hhi; [|lia|lia].
        lia.
      * left.
        assert (Hlt : 2 ^ (d2 - 1) < 2 ^ prec) by lia.
        apply Z.pow_lt_mono_r_iff in Hlt; [|lia|lia].
        lia.
Qed.

(** A finite result of rounding the exact product [M * 2 ^ E] lies within
    half a unit of its last place of that product, and has its sign. *)
Lemma binary_round_aux_nearest
    (s : bool) (M : positive) (E : Z) (s' : bool) (m' : positive) (e' : Z) :
  binary_round_aux prec emax s (Zpos M) E loc_Exact = S754_finite s' m' e' ->
  s' = s /\ E <= e' /\
  2 * Z.abs (Zpos m' * 2 ^ (e' - E) - Zpos M) <= 2 ^ (e' - E).
Proof.
  unfold binary_round_aux.
  destruct (shr_fexp_shifted (Zpos M) E ltac:(lia))
    as (k & Hk & He1 & Hsh & Hm1 & Hkdef).
  destruct (shr_fexp prec emax (Zpos M) E loc_Exact) as [mrs1 e1].
  cbn [fst snd] in *. subst e1.
  destruct (round_nearest_even_shifted (Zpos M) k mrs1 Hk Hsh)
    as (Herr & Hq & Hq0).
  set (q := round_nearest_even (shr_m mrs1) (loc_of_shr_record mrs1)) in *.
  pose proof (second_shift M E k mrs1 q Hkdef Hsh Hm1 Hq Hq0) as Hk2.
  cbv zeta in Hk2.
  destruct (shr_fexp_shifted q (E + k) ltac:(lia))
    as (k2 & Hk2' & He2 & Hsh2 & Hm2 & Hk2def).
  rewrite <- Hk2def in Hk2. clear Hk2def.
  destruct (shr_fexp prec emax q (E + k) loc_Exact) as [mrs2 e2].
  cbn [fst snd] in *. subst e2.
  destruct Hsh2 as (R2 & Hq2 & HR2 & _).
  destruct (shr_m mrs2) as [|m2|m2] eqn:Em2; try discriminate.
  destruct (E + k + k2 <=? emax - prec); [|discriminate].
  intros [= <- <- <-].
  split; [reflexivity|]. split; [lia|].
  assert (HP : 0 < 2 ^ k) by (apply Z.pow_pos_nonneg; lia).
  destruct Hk2 as [->|[-> Hq2p]].
  - replace (E + k + 0 - E) with k by lia.
    simpl in HR2. assert (q = Zpos m2) by lia. congruence.
  - replace (E + k + 1 - E) with (k + 1) by lia.
    rewrite Z.pow_add_r, Z.pow_1_r in * by lia.
    assert (Hev : 2 ^ prec = 2 * 2 ^ (prec - 1)).
    { rewrite <- Z.pow_succ_r by lia. f_equal. lia. }
    assert (R2 = 0) by lia. subst R2.
    replace (Zpos m2 * (2 ^ k * 2)) with (q * 2 ^ k) by lia.
    lia.
Qed.

(** The same for the product of two finite values. *)
Lemma SFmul_nearest
    (sx : bool) (mx : positive) (ex : Z)
    (sy : bool) (my : positive) (ey : Z)
    (s' : bool) (m' : positive) (e' : Z) :
  SFmul prec emax (S754_finite sx mx ex) (S754_finite sy my ey)
  = S754_finite s' m' e' ->
  s' = xorb sx sy /\ ex + ey <= e' /\
  2 * Z.abs (Zpos m' * 2 ^ (e' - (ex + ey)) - Zpos mx * Zpos my)
  <= 2 ^ (e' - (ex + ey)).
Proof. cbn [SFmul]. apply binary_round_aux_nearest. Qed.

End RoundingError.

Section ConversionFacts.
Import FloatOrder.
Local Open Scope float_scope.

(** Two floats that a comparison tells apart are different. *)
Lemma ltb_neq (x y : float) : (x <? y) = true -> x <> y.
Proof.
  intros H E. subst y.
  apply ltb_compare in H.
  pose proof (SFcompare_antisym (Prim2SF x) (Prim2SF x)) as A.
  rewrite H in A. discriminate.
Qed.

(** Multiplication by a positive finite constant rounds the exact product
    to a nearest binary64 value. *)
Lemma mul_nearest (c : float) (mc : positive) (ec : Z) :
  Prim2SF c = S754_finite false mc ec ->
  nearest_product (fun x => x * c) mc ec.
Proof.
  intros Hc x s m e s' m' e' Hx Hr.
  rewrite mul_spec, Hx, Hc in Hr. unfold SF64mul in Hr.
  apply (SFmul_nearest prec emax eq_refl) in Hr.
  rewrite xorb_false_r in Hr. exact Hr.
Qed.

(** C6, refuted as stated: the result is not in general the product with
    the factor.  MbTohPa(3) is not the binary64 value 0.3; the number it
    stands for is neither 3 times one tenth nor the exact product of the
    numbers its two binary64 operands stand for. *)
Lemma conversions_not_exact :
  MbTohPa 3 <> 0.3
  /\ match float_value (MbTohPa 3) with
     | Some v => ~ (v == 3 * (1 # 10))%Q
     | None => False
     end
  /\ match float_value (MbTohPa 3), float_value 3, float_value 0.1 with
     | Some v, Some a, Some c => ~ (v == a * c)%Q
     | _, _, _ => False
     end.
Proof.
  split; [|split].
  - intros H. symmetry in H. revert H. apply ltb_neq. reflexivity.
  - vm_compute. intros H. discriminate H.
  - vm_compute. intros H. discriminate H.
Qed.

(** C6, as the code has it.  Each conversion is the binary64 product of
    its input and the binary64 value nearest its factor (0.514444,
    33.8638866667, 1.60934, 0.1): the exact product of the two rounded to
    a nearest binary64 value, so with the sign of the input and within
    half a unit of the last place of the result; and each function maps 1
    to its factor. *)
Theorem conversions_round_product :
  (forall x : float,
      KtsToMs x = x * 0.514444
      /\ InHgTohPa x = x * 33.8638866667
      /\ StatMileToKm x = x * 1.60934
      /\ MbTohPa x = x * 0.1)
  /\ (Prim2SF 0.514444 = S754_finite false 4633699613405975 (-53)
      /\ nearest_product KtsToMs 4633699613405975 (-53))
  /\ (Prim2SF 33.8638866667 = S754_finite false 4765918355420838 (-47)
      /\ nearest_product InHgTohPa 4765918355420838 (-47))
  /\ (Prim2SF 1.60934 = S754_finite false 7247823024312434 (-52)
      /\ nearest_product StatMileToKm 7247823024312434 (-52))
  /\ (Prim2SF 0.1 = S754_finite false 7205759403792794 (-56)
      /\ nearest_product MbTohPa 7205759403792794 (-56))
  /\ KtsToMs 1 = 0.514444
  /\ InHgTohPa 1 = 33.8638866667
  /\ StatMileToKm 1 = 1.60934
  /\ MbTohPa 1 = 0.1.
Proof.
  split; [intros x; repeat split|].
  do 4 (split; [split; [reflexivity|apply mul_nearest; reflexivity]|]).
  repeat split.
Qed.

(** MbTohPa at 3: the result 5404319552844596 * 2 ^ -54 against the exact
    product 6755399441055744 * 7205759403792794 * 2 ^ -107. *)
Lemma conversions_round_product_witness :
  Prim2SF 3 = S754_finite false 6755399441055744 (-51)
  /\ Prim2SF (MbTohPa 3) = S754_finite false 5404319552844596 (-54)
  /\ (2 * Z.abs (5404319552844596 * 2 ^ (-54 - (-51 + -56))
                 - 6755399441055744 * 7205759403792794)
      <= 2 ^ (-54 - (-51 + -56)))%Z.
Proof.
  split; [reflexivity|]. split; [reflexivity|].
  exact (proj2 (proj2
           (proj2 (proj1 (proj2 (proj2 (proj2 (proj2
              conversions_round_product)))))
              3 false 6755399441055744%positive (-51)%Z
              false 5404319552844596%positive (-54)%Z
              eq_refl eq_refl))).
Defined.

(** C5.  MbTohPa does not return its input: MbTohPa(1) is 0.1 and
    MbTohPa(1013.25) is 101.325, a tenth of what went in, where millibar
    and hectopascal are one unit and the conversion between them leaves a
    number as it is. *)
Theorem MbTohPa_returns_a_tenth :
  MbTohPa 1 = 0.1 /\ MbTohPa 1 <> 1
  /\ MbTohPa 1013.25 = 101.325 /\ MbTohPa 1013.25 <> 1013.25
  /\ ~ (forall x, MbTohPa x = x).
Proof.
  assert (H : MbTohPa 1 <> 1) by (apply ltb_neq; reflexivity).
  split; [reflexivity|]. split; [exact H|]. split; [reflexivity|].
  split; [apply ltb_neq; reflexivity|].
  intros A. exact (H (A 1)).
Qed.

(** What is not a number fails every test of the switch. *)
Example KtsToBft_nan : KtsToBft nan = 12%Z.
Proof. reflexivity. Qed.

Example KtsToBft_infinities :
  KtsToBft neg_infinity = 0%Z /\ KtsToBft infinity = 12%Z.
Proof. split; reflexivity. Qed.

(** C7.  KtsToBft is monotone (x <= y gives KtsToBft(x) <= KtsToBft(y)),
    its value is always between 0 and 12, and each of 0..12 is the value
    of some input. *)
Theorem KtsToBft_monotone_bounded_onto :
  (forall x y : float, (x <=? y) = true -> (KtsToBft x <= KtsToBft y)%Z)
  /\ (forall x : float, (0 <= KtsToBft x <= 12)%Z)
  /\ (forall b : Z, (0 <= b <= 12)%Z -> exists x : float, KtsToBft x = b).
Proof.
  split; [|split].
  - intros x y Hxy. unfold KtsToBft.
    repeat match goal with
    | |- context [y <? ?c] =>
        let H := fresh "Hy" in
        destruct (y <? c) eqn:H;
        [ rewrite (leb_ltb_trans x y c Hxy H) | ]
    end;
    repeat match goal with
    | |- ((if ?b then _ else _) <= _)%Z => destruct b
    end; lia.
  - intros x. unfold KtsToBft.
    repeat match goal with
    | |- context [if ?b then _ else _] => destruct b
    end; lia.
  - intros b Hb.
    assert (Hc : (b = 0 \/ b = 1 \/ b = 2 \/ b = 3 \/ b = 4 \/ b = 5
                  \/ b = 6 \/ b = 7 \/ b = 8 \/ b = 9 \/ b = 10 \/ b = 11
                  \/ b = 12)%Z) by lia.
    repeat (destruct Hc as [->|Hc]).
    + exists 0; reflexivity.
    + exists 1; reflexivity.
    + exists 4; reflexivity.
    + exists 7; reflexivity.
    + exists 11; reflexivity.
    + exists 16; reflexivity.
    + exists 22; reflexivity.
    + exists 28; reflexivity.
    + exists 34; reflexivity.
    + exists 41; reflexivity.
    + exists 48; reflexivity.
    + exists 56; reflexivity.
    + subst b. exists 64; reflexivity.
Qed.

(** 3 knots is at most 30 knots, and band 7 is reached. *)
Lemma KtsToBft_monotone_bounded_onto_witness :
  (3 <=? 30) = true /\ (KtsToBft 3 <= KtsToBft 30)%Z
  /\ (0 <= 7 <= 12)%Z /\ exists x : float, KtsToBft x = 7%Z.
Proof.
  split; [reflexivity|].
  split; [apply (proj1 KtsToBft_monotone_bounded_onto 3 30); reflexivity|].
  split; [lia|].
  apply (proj2 (proj2 KtsToBft_monotone_bounded_onto) 7%Z). lia.
Defined.

End ConversionFacts.

(* ================================================================== *)
(** ** metar.go: properties of FetchCurrentStationWeather *)

Section FetchFacts.

Variable Request : Type.
Variable http_NewRequest : string -> string -> Request * option error.
Variable Net : Type.
Variable xml_Decode : string -> response + error.

Local Abbreviation Fetch :=
  (FetchCurrentStationWeather Request http_NewRequest Net xml_Decode).
Local Abbreviation decoded_for :=
  (decoded Request http_NewRequest Net xml_Decode).
Local Abbreviation answer_for := (answer Request http_NewRequest Net).
Local Abbreviation request := (request_for Request http_NewRequest).

Local Open Scope string_scope.

(** The format has one placeholder, and the station takes its place. *)
Lemma Sprintf_apiSource (station : string) :
  fmt_Sprintf apiSource [station] =
  "https://www.aviationweather.gov/adds/dataserver_current/httpparam?dataSource=metars&requestType=retrieve&format=xml&stationString="
  ++ station ++ "&hoursBeforeNow=2&mostRecent=true".
Proof. reflexivity. Qed.

(** The function, in terms of the client's answer: the request is sent
    once, and the rest depends on the answer alone. *)
Lemma Fetch_unfold (station : string) (w : World Request Net) :
  Fetch station w =
  (match answer_for station w with
   | Panic msg => Panic msg
   | Return (inr err) => Return (None, Some err)
   | Return (inl res) =>
       match xml_Decode (Body res) with
       | inr err => Return (None, Some err)
       | inl r =>
           if negb (NumResults (Data r) =? len (Results (Data r)))%Z then
             Return (None, Some (errors_New "Got inconsistent number of results"))
           else if (NumResults (Data r) =? 0)%Z then
             Return (None, Some (errors_New "Did not find any data for your station"))
           else
             match index (Results (Data r)) 0 with
             | Return first => Return (Some first, None)
             | Panic msg => Panic msg
             end
       end
   end,
   {| HTTPClient := HTTPClient w;
      net := snd (HTTPClient w (request station) (net w));
      sent := (sent w ++ [request station])%list |}).
Proof.
  unfold FetchCurrentStationWeather, answer, request_for, HTTPClient_Do.
  generalize (fmt_Sprintf apiSource [station]) as url. intros url.
  destruct (http_NewRequest "GET" url) as [req e]. cbn [fst].
  destruct (HTTPClient w req (net w)) as [[[res|err]|msg] n]; cbn [fst snd].
  - destruct (xml_Decode (Body res)) as [r|err]; [|reflexivity].
    destruct (negb _); [reflexivity|].
    destruct (_ =? 0)%Z; [reflexivity|].
    destruct (index _ _); reflexivity.
  - reflexivity.
  - reflexivity.
Qed.

Lemma decoded_Some (station : string) (w : World Request Net) (r : response) :
  decoded_for station w = Some r ->
  exists res,
    answer_for station w = Return (inl res) /\ xml_Decode (Body res) = inl r.
Proof.
  unfold decoded.
  destruct (answer_for station w) as [[res|err]|msg]; try discriminate.
  destruct (xml_Decode (Body res)) as [r'|err] eqn:E; [|discriminate].
  intros [= ->]. exists res. split; [reflexivity|exact E].
Qed.


(** C1.  When the decoded envelope declares as many results as it holds
    and holds at least one, the function returns the first of them as the
    decoder delivered it, whatever follows it in the sequence, and no
    error. *)
Theorem Fetch_returns_first
    (station : string) (w : World Request Net)
    (r : response) (first : Result) (rest : list Result) :
  decoded_for station w = Some r ->
  Results (Data r) = first :: rest ->
  NumResults (Data r) = len (Results (Data r)) ->
  fst (Fetch station w) = Return (Some first, None).
Proof.
  intros Hd Hrs Hn. apply decoded_Some in Hd. destruct Hd as (res & Ha & Hx).
  rewrite Fetch_unfold. cbn [fst]. rewrite Ha, Hx, Hn, Z.eqb_refl. cbn [negb].
  rewrite Hrs. reflexivity.
Qed.

(** C2.  When the declared count differs from the number of decoded
    results, the function returns no observation and the error "Got
    inconsistent number of results", whether the sequence is empty or
    not. *)
Theorem Fetch_inconsistent_count
    (station : string) (w : World Request Net) (r : response) :
  decoded_for station w = Some r ->
  NumResults (Data r) <> len (Results (Data r)) ->
  fst (Fetch station w) =
  Return (None, Some (errors_New "Got inconsistent number of results")).
Proof.
  intros Hd Hn. apply decoded_Some in Hd. destruct Hd as (res & Ha & Hx).
  rewrite Fetch_unfold. cbn [fst]. rewrite Ha, Hx.
  apply Z.eqb_neq in Hn. rewrite Hn. reflexivity.
Qed.

(** C3.  When the decoded envelope declares zero results and holds none,
    the function returns no observation and the error "Did not find any
    data for your station". *)
Theorem Fetch_no_data
    (station : string) (w : World Request Net) (r : response) :
  decoded_for station w = Some r ->
  NumResults (Data r) = 0%Z ->
  Results (Data r) = [] ->
  fst (Fetch station w) =
  Return (None, Some (errors_New "Did not find any data for your station")).
Proof.
  intros Hd Hn Hrs. apply decoded_Some in Hd. destruct Hd as (res & Ha & Hx).
  rewrite Fetch_unfold. cbn [fst]. rewrite Ha, Hx, Hn, Hrs. reflexivity.
Qed.

(** C8.  For every station string the function hands exactly one request
    to the client, whatever the string looks like: the one
    [http.NewRequest] makes for method GET and the URL that is the query
    template with the station in the place of its placeholder. *)
Theorem Fetch_sends_templated_GET (station : string) (w : World Request Net) :
  sent (snd (Fetch station w)) =
  (sent w ++
   [fst (http_NewRequest "GET"
      ("https://www.aviationweather.gov/adds/dataserver_current/httpparam?dataSource=metars&requestType=retrieve&format=xml&stationString="
       ++ station ++ "&hoursBeforeNow=2&mostRecent=true"))])%list
  /\ fmt_Sprintf apiSource [station] =
     "https://www.aviationweather.gov/adds/dataserver_current/httpparam?dataSource=metars&requestType=retrieve&format=xml&stationString="
     ++ station ++ "&hoursBeforeNow=2&mostRecent=true".
Proof.
  split; [|apply Sprintf_apiSource].
  rewrite Fetch_unfold. cbn [snd sent]. unfold request_for.
  rewrite Sprintf_apiSource. reflexivity.
Qed.

(** The request for EDDH, as the concrete exchange records it. *)
Example Fetch_EDDH_request :
  sent (snd (FetchCurrentStationWeather sample_Request sample_NewRequest unit
               (sample_decoder (inl (sample_envelope 1 [older])))
               "EDDH" (sample_world (inl sample_Response))))
  = [("GET",
      "https://www.aviationweather.gov/adds/dataserver_current/httpparam?dataSource=metars&requestType=retrieve&format=xml&stationString=EDDH&hoursBeforeNow=2&mostRecent=true")].
Proof. reflexivity. Qed.

(** A station string of any shape goes out as it is. *)
Example Fetch_odd_station_request :
  sent (snd (FetchCurrentStationWeather sample_Request sample_NewRequest unit
               (sample_decoder (inl (sample_envelope 0 [])))
               "not a station %s" (sample_world (inl sample_Response))))
  = [("GET",
      "https://www.aviationweather.gov/adds/dataserver_current/httpparam?dataSource=metars&requestType=retrieve&format=xml&stationString=not a station %s&hoursBeforeNow=2&mostRecent=true")].
Proof. reflexivity. Qed.

(** A station with a line feed in it: the request is [nil], the error that
    came with it is dropped, and the client's panic ends the call. *)
Example Fetch_control_byte_station :
  FetchCurrentStationWeather nilable_Request parsing_NewRequest unit
    (sample_decoder (inl (sample_envelope 1 [older])))
    (String "E" (String "D" (String (ascii_of_nat 10) "DH")))
    (dereferencing_world (inl sample_Response))
  = (Panic "invalid memory address or nil pointer dereference",
     {| HTTPClient := dereferencing_client (inl sample_Response);
        net := tt; sent := [None] |}).
Proof. reflexivity. Qed.

(** The same exchange and a station without control bytes. *)
Example Fetch_plain_station :
  fst (FetchCurrentStationWeather nilable_Request parsing_NewRequest unit
         (sample_decoder (inl (sample_envelope 1 [older])))
         "EDDH" (dereferencing_world (inl sample_Response)))
  = Return (Some older, None).
Proof. reflexivity. Qed.

(** A slice that passed both checks has a first element. *)
Lemma checks_give_first (r : response) :
  NumResults (Data r) = len (Results (Data r)) ->
  NumResults (Data r) <> 0%Z ->
  (1 <= List.length (Results (Data r)))%nat /\
  exists first, index (Results (Data r)) 0 = Return first.
Proof.
  unfold len, index. intros Hn Hz.
  destruct (Results (Data r)) as [|x rest]; cbn in *.
  - congruence.
  - split; [lia|]. exists x. reflexivity.
Qed.

(** The bounds check of the index expression never fails: a panic of the
    function is a panic of the client. *)
Lemma Fetch_panic_is_the_clients
    (station : string) (w : World Request Net) (msg : string) :
  fst (Fetch station w) = Panic msg -> answer_for station w = Panic msg.
Proof.
  rewrite Fetch_unfold. cbn [fst].
  destruct (answer_for station w) as [[res|err]|msg'];
    [|discriminate|congruence].
  destruct (xml_Decode (Body res)) as [r|err]; [|discriminate].
  destruct (NumResults (Data r) =? len (Results (Data r)))%Z eqn:En;
    cbn [negb]; [|discriminate].
  destruct (NumResults (Data r) =? 0)%Z eqn:Ez; [discriminate|].
  apply Z.eqb_eq in En. apply Z.eqb_neq in Ez.
  destruct (checks_give_first r En Ez) as (_ & first & ->). discriminate.
Qed.

(** C9.  The index expression is evaluated only when the declared count
    equals the length and is not zero; then the slice has at least one
    element, so its element 0 exists and is what the function returns.
    The bounds check therefore never fails: whenever the function panics,
    the panic is the one the client's Do raised. *)
Theorem Fetch_index_in_bounds (station : string) (w : World Request Net) :
  (forall msg,
      fst (Fetch station w) = Panic msg -> answer_for station w = Panic msg)
  /\ (forall r,
        decoded_for station w = Some r ->
        NumResults (Data r) = len (Results (Data r)) ->
        NumResults (Data r) <> 0%Z ->
        (1 <= List.length (Results (Data r)))%nat /\
        exists first,
          index (Results (Data r)) 0 = Return first /\
          fst (Fetch station w) = Return (Some first, None))
  /\ (forall first e,
        fst (Fetch station w) = Return (Some first, e) ->
        exists r,
          decoded_for station w = Some r /\
          NumResults (Data r) = len (Results (Data r)) /\
          NumResults (Data r) <> 0%Z /\
          index (Results (Data r)) 0 = Return first).
Proof.
  split; [|split].
  - apply Fetch_panic_is_the_clients.
  - intros r Hd Hn Hz.
    destruct (checks_give_first r Hn Hz) as (Hlen & first & Hi).
    split; [exact Hlen|]. exists first. split; [exact Hi|].
    apply decoded_Some in Hd. destruct Hd as (res & Ha & Hx).
    rewrite Fetch_unfold. cbn [fst]. rewrite Ha, Hx, Hn, Z.eqb_refl.
    cbn [negb]. apply Z.eqb_neq in Hz. rewrite <- Hn, Hz, Hi. reflexivity.
  - intros first e. rewrite Fetch_unfold. cbn [fst]. unfold decoded.
    destruct (answer_for station w) as [[res|err]|msg]; try discriminate.
    destruct (xml_Decode (Body res)) as [r|err]; [|discriminate].
    destruct (NumResults (Data r) =? len (Results (Data r)))%Z eqn:En;
      cbn [negb]; [|discriminate].
    destruct (NumResults (Data r) =? 0)%Z eqn:Ez; [discriminate|].
    apply Z.eqb_eq in En. apply Z.eqb_neq in Ez.
    destruct (index (Results (Data r)) 0) as [x|msg] eqn:Ei; [|discriminate].
    intros [= -> _]. exists r. repeat split; assumption.
Qed.

(** C10.  Of the pair the function returns exactly one component is there:
    an observation without an error, or an error without an observation.
    A transport error and a decoding error come back as they are with no
    observation, and so do the two errors of the function's own.  The
    function returns whenever the client's Do returns. *)
Theorem Fetch_observation_xor_error (station : string) (w : World Request Net) :
  (forall p e,
      fst (Fetch station w) = Return (p, e) ->
      (p = None /\ e <> None) \/ (p <> None /\ e = None))
  /\ (forall a,
        answer_for station w = Return a ->
        exists p e, fst (Fetch station w) = Return (p, e))
  /\ (forall err,
        answer_for station w = Return (inr err) ->
        fst (Fetch station w) = Return (None, Some err))
  /\ (forall res err,
        answer_for station w = Return (inl res) ->
        xml_Decode (Body res) = inr err ->
        fst (Fetch station w) = Return (None, Some err))
  /\ (forall r,
        decoded_for station w = Some r ->
        NumResults (Data r) <> len (Results (Data r)) \/
        NumResults (Data r) = 0%Z ->
        exists err, fst (Fetch station w) = Return (None, Some err)).
Proof.
  split; [|split; [|split; [|split]]].
  - intros p e. rewrite Fetch_unfold. cbn [fst].
    destruct (answer_for station w) as [[res|err]|msg]; [| |discriminate].
    2:{ intros [= <- <-]. left. now split. }
    destruct (xml_Decode (Body res)) as [r|err].
    2:{ intros [= <- <-]. left. now split. }
    destruct (negb _).
    { intros [= <- <-]. left. now split. }
    destruct (_ =? 0)%Z.
    { intros [= <- <-]. left. now split. }
    destruct (index _ _) as [x|msg]; [|discriminate].
    intros [= <- <-]. right. now split.
  - intros a Ha.
    destruct (fst (Fetch station w)) as [[p e]|msg] eqn:E.
    + exists p, e. reflexivity.
    + apply Fetch_panic_is_the_clients in E. congruence.
  - intros err Ha. rewrite Fetch_unfold. cbn [fst]. rewrite Ha. reflexivity.
  - intros res err Ha Hx. rewrite Fetch_unfold. cbn [fst].
    rewrite Ha, Hx. reflexivity.
  - intros r Hd H. apply decoded_Some in Hd. destruct Hd as (res & Ha & Hx).
    rewrite Fetch_unfold. cbn [fst]. rewrite Ha, Hx.
    destruct (NumResults (Data r) =? len (Results (Data r)))%Z eqn:En;
      cbn [negb]; [|eexists; reflexivity].
    destruct H as [H|H].
    + apply Z.eqb_eq in En. contradiction.
    + rewrite H. cbn. eexists; reflexivity.
Qed.

End FetchFacts.

(* ------------------------------------------------------------------ *)
(** *** The properties at work on the concrete exchange *)

Section FetchExamples.
Local Open Scope string_scope.

Local Abbreviation fetch_with d :=
  (FetchCurrentStationWeather sample_Request sample_NewRequest unit
     (sample_decoder d)).
Local Abbreviation decoded_with d :=
  (decoded sample_Request sample_NewRequest unit (sample_decoder d)).

(** Two observations, the older one first: the first is what comes back. *)
Lemma Fetch_returns_first_witness :
  decoded_with (inl (sample_envelope 2 [older; newer]))
    "EDDH" (sample_world (inl sample_Response))
  = Some (sample_envelope 2 [older; newer])
  /\ Results (Data (sample_envelope 2 [older; newer])) = older :: [newer]
  /\ NumResults (Data (sample_envelope 2 [older; newer]))
     = len (Results (Data (sample_envelope 2 [older; newer])))
  /\ fst (fetch_with (inl (sample_envelope 2 [older; newer]))
            "EDDH" (sample_world (inl sample_Response)))
     = Return (Some older, None).
Proof.
  do 3 (split; [reflexivity|]).
  apply (Fetch_returns_first sample_Request sample_NewRequest unit
           (sample_decoder (inl (sample_envelope 2 [older; newer])))
           "EDDH" (sample_world (inl sample_Response))
           (sample_envelope 2 [older; newer]) older [newer]);
    reflexivity.
Defined.

(** Two results declared, one delivered. *)
Lemma Fetch_inconsistent_count_witness :
  decoded_with (inl (sample_envelope 2 [older]))
    "EDDH" (sample_world (inl sample_Response))
  = Some (sample_envelope 2 [older])
  /\ NumResults (Data (sample_envelope 2 [older])) <>
  len (Results (Data (sample_envelope 2 [older])))
  /\ fst (fetch_with (inl (sample_envelope 2 [older]))
            "EDDH" (sample_world (inl sample_Response)))
     = Return (None, Some (errors_New "Got inconsistent number of results")).
Proof.
  split; [reflexivity|].
  split; [discriminate|].
  apply (Fetch_inconsistent_count sample_Request sample_NewRequest unit
           (sample_decoder (inl (sample_envelope 2 [older])))
           "EDDH" (sample_world (inl sample_Response))
           (sample_envelope 2 [older]));
    [reflexivity|discriminate].
Defined.

(** No result declared, none delivered. *)
Lemma Fetch_no_data_witness :
  decoded_with (inl (sample_envelope 0 []))
    "XXXX" (sample_world (inl sample_Response))
  = Some (sample_envelope 0 [])
  /\ NumResults (Data (sample_envelope 0 [])) = 0%Z
  /\ Results (Data (sample_envelope 0 [])) = []
  /\ fst (fetch_with (inl (sample_envelope 0 []))
            "XXXX" (sample_world (inl sample_Response)))
     = Return (None, Some (errors_New "Did not find any data for your station")).
Proof.
  do 3 (split; [reflexivity|]).
  apply (Fetch_no_data sample_Request sample_NewRequest unit
           (sample_decoder (inl (sample_envelope 0 [])))
           "XXXX" (sample_world (inl sample_Response))
           (sample_envelope 0 []));
    reflexivity.
Defined.

(** One result declared and delivered: element 0 is there. *)
Lemma Fetch_index_in_bounds_witness :
  decoded_with (inl (sample_envelope 1 [older]))
    "EDDH" (sample_world (inl sample_Response))
  = Some (sample_envelope 1 [older])
  /\ NumResults (Data (sample_envelope 1 [older]))
     = len (Results (Data (sample_envelope 1 [older])))
  /\ NumResults (Data (sample_envelope 1 [older])) <> 0%Z
  /\ (1 <= List.length (Results (Data (sample_envelope 1 [older]))))%nat
  /\ exists first,
       index (Results (Data (sample_envelope 1 [older]))) 0 = Return first /\
       fst (fetch_with (inl (sample_envelope 1 [older]))
              "EDDH" (sample_world (inl sample_Response)))
       = Return (Some first, None).
Proof.
  do 2 (split; [reflexivity|]).
  split; [discriminate|].
  apply (proj1 (proj2
           (Fetch_index_in_bounds sample_Request sample_NewRequest unit
              (sample_decoder (inl (sample_envelope 1 [older])))
              "EDDH" (sample_world (inl sample_Response))))
           (sample_envelope 1 [older]));
    [reflexivity|reflexivity|discriminate].
Defined.

(** A client that fails: its error comes back, and nothing else. *)
Lemma Fetch_observation_xor_error_witness :
  answer sample_Request sample_NewRequest unit "EDDH"
    (sample_world (inr (foreign_error "net/http" "connection refused")))
  = Return (inr (foreign_error "net/http" "connection refused"))
  /\ fst (fetch_with (inl (sample_envelope 1 [older]))
            "EDDH"
            (sample_world (inr (foreign_error "net/http" "connection refused"))))
     = Return (None, Some (foreign_error "net/http" "connection refused"))
  /\ ((@None Result = None /\
       Some (foreign_error "net/http" "connection refused") <> None)
      \/ (@None Result <> None /\
          Some (foreign_error "net/http" "connection refused") = None)).
Proof.
  split; [reflexivity|].
  assert (H : fst (fetch_with (inl (sample_envelope 1 [older]))
                     "EDDH"
                     (sample_world
                        (inr (foreign_error "net/http" "connection refused"))))
              = Return (None,
                        Some (foreign_error "net/http" "connection refused"))).
  { apply (proj1 (proj2 (proj2
             (Fetch_observation_xor_error sample_Request sample_NewRequest unit
                (sample_decoder (inl (sample_envelope 1 [older])))
                "EDDH"
                (sample_world
                   (inr (foreign_error "net/http" "connection refused"))))))).
    reflexivity. }
  split; [exact H|].
  exact (proj1
           (Fetch_observation_xor_error sample_Request sample_NewRequest unit
              (sample_decoder (inl (sample_envelope 1 [older])))
              "EDDH"
              (sample_world
                 (inr (foreign_error "net/http" "connection refused"))))
           None (Some (foreign_error "net/http" "connection refused")) H).
Defined.

End FetchExamples.

(* ================================================================== *)
(** ** helpers.go: further properties of KtsToBft *)

Section BeaufortBands.
Import FloatOrder.
Local Open Scope float_scope.

Lemma SFcompare_refl (x : spec_float) :
  x <> S754_nan -> SFcompare x x = Some Eq.
Proof.
  destruct x as [[]|[]| |[] m e]; simpl; try reflexivity; try congruence;
    intros _; rewrite Z.compare_refl;
    change (PosDef.Pos.compare_cont Eq m m) with (Pos.compare m m);
    rewrite Pos.compare_refl; reflexivity.
Qed.

Lemma is_nan_Prim2SF (x : float) :
  is_nan x = true <-> Prim2SF x = S754_nan.
Proof.
  unfold is_nan. rewrite eqb_spec. unfold SFeqb. split.
  - destruct (Prim2SF x) as [s|s| |s m e] eqn:E; try reflexivity;
      rewrite SFcompare_refl by discriminate; discriminate.
  - intros ->. reflexivity.
Qed.

Lemma not_nan_Prim2SF (x : float) :
  is_nan x = false <-> Prim2SF x <> S754_nan.
Proof.
  rewrite <- is_nan_Prim2SF. destruct (is_nan x); split; congruence.
Qed.

(** What compares below something is a number. *)
Lemma ltb_not_nan (x y : float) : (x <? y) = true -> is_nan x = false.
Proof.
  intros H. apply ltb_compare in H. apply not_nan_Prim2SF. intros E.
  rewrite E in H. discriminate.
Qed.

(** What is not a number compares below nothing. *)
Lemma nan_ltb (x y : float) : is_nan x = true -> (x <? y) = false.
Proof.
  intros H. destruct (x <? y) eqn:E; [|reflexivity].
  apply ltb_not_nan in E. congruence.
Qed.

Lemma KtsToBft_of_nan (kts : float) : is_nan kts = true -> KtsToBft kts = 12%Z.
Proof.
  intros H. unfold KtsToBft. rewrite !(nan_ltb kts _ H). reflexivity.
Qed.

(** From [lo <= x], every test of the switch against a bound [c <= lo]
    fails. *)
Ltac drop_below Hlo :=
  match type of Hlo with
  | (?lo <=? ?x) = true =>
      repeat match goal with
      | |- context [x <? ?c] =>
          rewrite (above_not_ltb c lo x (eq_refl true) Hlo)
      end
  end.

(** Reading the switch backwards: the case that returned tells which tests
    failed before it and that its own succeeded. *)
Ltac which_case H :=
  unfold KtsToBft in H;
  repeat match type of H with
  | (if (?x <? ?c) then _ else _) = _ =>
      let E := fresh "E" in
      destruct (x <? c) eqn:E; try discriminate H
  end.

Ltac band_back H :=
  which_case H; unfold within;
  match goal with
  | Elo : (?x <? ?lo) = false, Ehi : (?x <? ?hi) = true
    |- (?lo <=? ?x) && (?x <? ?hi) = true =>
      rewrite Ehi,
        (not_ltb_leb x lo (ltb_not_nan x hi Ehi) (eq_refl false) Elo);
      reflexivity
  end.

Ltac band_forth H :=
  unfold within in H; apply andb_true_iff in H;
  let Hlo := fresh "Hlo" in
  let Hhi := fresh "Hhi" in
  destruct H as [Hlo Hhi];
  unfold KtsToBft; drop_below Hlo; rewrite ?Hhi; reflexivity.

(** X1.  The band tells the interval: KtsToBft(kts) is 0 exactly when
    kts < 1, it is b for b in 1..11 exactly when kts lies in the b-th
    interval of the table, and it is 12 exactly when kts >= 64 or kts is
    not a number. *)
Theorem KtsToBft_band_iff (kts : float) :
  (KtsToBft kts = 0%Z <-> (kts <? 1) = true)
  /\ (KtsToBft kts = 1%Z <-> within 1 4 kts = true)
  /\ (KtsToBft kts = 2%Z <-> within 4 7 kts = true)
  /\ (KtsToBft kts = 3%Z <-> within 7 11 kts = true)
  /\ (KtsToBft kts = 4%Z <-> within 11 16 kts = true)
  /\ (KtsToBft kts = 5%Z <-> within 16 22 kts = true)
  /\ (KtsToBft kts = 6%Z <-> within 22 28 kts = true)
  /\ (KtsToBft kts = 7%Z <-> within 28 34 kts = true)
  /\ (KtsToBft kts = 8%Z <-> within 34 41 kts = true)
  /\ (KtsToBft kts = 9%Z <-> within 41 48 kts = true)
  /\ (KtsToBft kts = 10%Z <-> within 48 56 kts = true)
  /\ (KtsToBft kts = 11%Z <-> within 56 64 kts = true)
  /\ (KtsToBft kts = 12%Z <-> (64 <=? kts) = true \/ is_nan kts = true).
Proof.
  split.
  { split; intros H; [which_case H; reflexivity|].
    unfold KtsToBft. rewrite H. reflexivity. }
  do 11 (split; [split; intros H; [band_back H|band_forth H]|]).
  split.
  - intros H. which_case H.
    destruct (is_nan kts) eqn:En; [now right|left].
    apply not_ltb_leb; [exact En|reflexivity|assumption].
  - intros [H|H]; [|apply KtsToBft_of_nan; exact H].
    unfold KtsToBft. drop_below H. reflexivity.
Qed.

(** Band 5 at 20 knots, both ways. *)
Lemma KtsToBft_band_iff_witness :
  KtsToBft 20 = 5%Z /\ within 16 22 20 = true.
Proof.
  pose proof (proj1 (proj2 (proj2 (proj2 (proj2 (proj2
               (KtsToBft_band_iff 20))))))) as H.
  split; [apply (proj2 H); reflexivity|apply (proj1 H); reflexivity].
Defined.

Lemma KtsToBft_le_mono (x y : float) :
  (x <=? y) = true -> (KtsToBft x <= KtsToBft y)%Z.
Proof.
  intros Hxy. unfold KtsToBft.
  repeat match goal with
  | |- context [y <? ?c] =>
      let H := fresh "Hy" in
      destruct (y <? c) eqn:H;
      [ rewrite (leb_ltb_trans x y c Hxy H) | ]
  end;
  repeat match goal with
  | |- ((if ?b then _ else _) <= _)%Z => destruct b
  end; lia.
Qed.

Lemma KtsToBft_upper (x : float) : (KtsToBft x <= 12)%Z.
Proof.
  unfold KtsToBft.
  repeat match goal with
  | |- ((if ?b then _ else _) <= _)%Z => destruct b
  end; lia.
Qed.

(** X2.  A higher band means a strictly higher speed: when y is a number
    and KtsToBft(x) < KtsToBft(y), then x < y. *)
Theorem KtsToBft_lt_reflects (x y : float) :
  is_nan y = false ->
  (KtsToBft x < KtsToBft y)%Z ->
  (x <? y) = true.
Proof.
  intros Hy Hlt. destruct (x <? y) eqn:E; [reflexivity|exfalso].
  destruct (is_nan x) eqn:Hx.
  - rewrite (KtsToBft_of_nan x Hx) in Hlt.
    pose proof (KtsToBft_upper y). lia.
  - pose proof (KtsToBft_le_mono y x (not_ltb_leb x y Hx Hy E)). lia.
Qed.

Lemma KtsToBft_lt_reflects_witness :
  is_nan 30 = false /\ (KtsToBft 3 < KtsToBft 30)%Z /\ (3 <? 30) = true.
Proof.
  split; [reflexivity|]. split; [reflexivity|].
  apply (KtsToBft_lt_reflects 3 30); reflexivity.
Defined.

End BeaufortBands.

(* ================================================================== *)
(** ** helpers.go: the conversions and the sign of their input

    Each conversion multiplies by a positive finite constant.  What IEEE
    754 multiplication does with signs, zeros, infinities and NaN then
    carries over to the four functions. *)

Section ConversionSigns.
Import FloatOrder.
Local Open Scope float_scope.

Variables prec emax : Z.

Lemma shr_1_nonneg (mrs : shr_record) :
  (0 <= shr_m mrs)%Z -> (0 <= shr_m (shr_1 mrs))%Z.
Proof.
  destruct mrs as [m r s]. destruct m as [|[p|p|]|p]; simpl; lia.
Qed.

Lemma iter_shr_1_nonneg (p : positive) (mrs : shr_record) :
  (0 <= shr_m mrs)%Z -> (0 <= shr_m (iter_pos shr_1 p mrs))%Z.
Proof.
  revert mrs. induction p as [p IH|p IH|]; simpl; intros mrs H.
  - apply IH, IH, shr_1_nonneg, H.
  - apply IH, IH, H.
  - apply shr_1_nonneg, H.
Qed.

Lemma shr_fexp_nonneg (m e : Z) (l : location) :
  (0 <= m)%Z -> (0 <= shr_m (fst (shr_fexp prec emax m e l)))%Z.
Proof.
  intros H. unfold shr_fexp, shr.
  assert (H0 : (0 <= shr_m (shr_record_of_loc m l))%Z)
    by (destruct l as [|[]]; exact H).
  destruct (_ - e)%Z; simpl; auto using iter_shr_1_nonneg.
Qed.

Lemma round_nearest_even_nonneg (m : Z) (l : location) :
  (0 <= m)%Z -> (0 <= round_nearest_even m l)%Z.
Proof.
  intros H. destruct l as [|[]]; simpl; try lia.
  destruct (Z.even m); lia.
Qed.

(** Rounding a positive product gives a zero, a finite value or an
    infinity, with the sign it was given. *)
Lemma binary_round_aux_sign (s : bool) (m : positive) (e : Z) :
  match binary_round_aux prec emax s (Zpos m) e loc_Exact with
  | S754_zero s' | S754_infinity s' | S754_finite s' _ _ => s' = s
  | S754_nan => False
  end.
Proof.
  unfold binary_round_aux.
  pose proof (shr_fexp_nonneg (Zpos m) e loc_Exact ltac:(lia)) as H1.
  destruct (shr_fexp prec emax (Zpos m) e loc_Exact) as [mrs1 e1].
  cbn [fst] in H1.
  pose proof (shr_fexp_nonneg _ e1 loc_Exact
                (round_nearest_even_nonneg _ (loc_of_shr_record mrs1) H1))
    as H2.
  destruct (shr_fexp prec emax _ e1 loc_Exact) as [mrs2 e2].
  cbn [fst] in H2.
  destruct (shr_m mrs2) as [|p|p]; [reflexivity| |lia].
  destruct (e2 <=? emax - prec)%Z; reflexivity.
Qed.

Lemma binary_round_aux_negb (s : bool) (m e : Z) (l : location) :
  binary_round_aux prec emax (negb s) m e l =
  SFopp (binary_round_aux prec emax s m e l).
Proof.
  unfold binary_round_aux.
  destruct (shr_fexp prec emax m e l) as [mrs1 e1].
  destruct (shr_fexp prec emax _ e1 loc_Exact) as [mrs2 e2].
  destruct (shr_m mrs2); [reflexivity| |reflexivity].
  destruct (e2 <=? emax - prec)%Z; reflexivity.
Qed.

Lemma SFmul_opp_l (x y : spec_float) :
  SFmul prec emax (SFopp x) y = SFopp (SFmul prec emax x y).
Proof.
  destruct x as [sx|sx| |sx mx ex], y as [sy|sy| |sy my ey]; simpl;
    try reflexivity; try (destruct sx, sy; reflexivity).
  rewrite <- binary_round_aux_negb. f_equal. destruct sx, sy; reflexivity.
Qed.

(** A product with a positive finite factor keeps what its other operand
    is: NaN stays NaN, a zero or an infinity keeps its sign, and a finite
    value goes to a zero, a finite value or an infinity of its sign. *)
Lemma SFmul_positive_factor (x y : spec_float) (mc : positive) (ec : Z) :
  y = SFmul prec emax x (S754_finite false mc ec) ->
  match x, y with
  | S754_nan, S754_nan => True
  | S754_zero s, S754_zero s' => s' = s
  | S754_infinity s, S754_infinity s' => s' = s
  | S754_finite s _ _, (S754_zero s' | S754_finite s' _ _ | S754_infinity s') =>
      s' = s
  | _, _ => False
  end.
Proof.
  intros ->.
  destruct x as [s|s| |s m e]; simpl; try (destruct s; reflexivity); auto.
  pose proof (binary_round_aux_sign (xorb s false) (m * mc) (e + ec)) as H.
  destruct (binary_round_aux _ _ _ _ _ _); rewrite ?xorb_false_r in H; exact H.
Qed.

End ConversionSigns.

Section ConversionSignFacts.
Import FloatOrder.
Local Open Scope float_scope.

Lemma mul_opp_l (x c : float) : (- x) * c = - (x * c).
Proof.
  apply Prim2SF_inj.
  rewrite mul_spec, !opp_spec, mul_spec. apply SFmul_opp_l.
Qed.

(** X3.  The conversions are odd: converting the negated value gives the
    negated conversion, for every input (zeros, infinities and NaN
    included). *)
Theorem conversions_commute_with_negation (x : float) :
  KtsToMs (- x) = - KtsToMs x
  /\ InHgTohPa (- x) = - InHgTohPa x
  /\ StatMileToKm (- x) = - StatMileToKm x
  /\ MbTohPa (- x) = - MbTohPa x.
Proof.
  unfold KtsToMs, InHgTohPa, StatMileToKm, MbTohPa.
  repeat split; apply mul_opp_l.
Qed.

Lemma zero_leb_Prim2SF (y : float) :
  (0 <=? y) = true <->
  match Prim2SF y with
  | S754_zero _ => True
  | S754_infinity s | S754_finite s _ _ => s = false
  | S754_nan => False
  end.
Proof.
  rewrite leb_spec. change (Prim2SF 0) with (S754_zero false).
  destruct (Prim2SF y) as [s|[]| |[] m e]; unfold SFleb; simpl;
    intuition congruence.
Qed.

Lemma leb_zero_Prim2SF (y : float) :
  (y <=? 0) = true <->
  match Prim2SF y with
  | S754_zero _ => True
  | S754_infinity s | S754_finite s _ _ => s = true
  | S754_nan => False
  end.
Proof.
  rewrite leb_spec. change (Prim2SF 0) with (S754_zero false).
  destruct (Prim2SF y) as [s|[]| |[] m e]; unfold SFleb; simpl;
    intuition congruence.
Qed.

(** Multiplying by a positive finite constant: NaN in, NaN out, and only
    then; what is at least zero stays so, what is at most zero stays so. *)
Lemma mul_positive_const (c x : float) (mc : positive) (ec : Z) :
  Prim2SF c = S754_finite false mc ec ->
  is_nan (x * c) = is_nan x
  /\ ((0 <=? x) = true -> (0 <=? x * c) = true)
  /\ ((x <=? 0) = true -> (x * c <=? 0) = true).
Proof.
  intros Hc.
  assert (H := SFmul_positive_factor prec emax (Prim2SF x) (Prim2SF (x * c))
                 mc ec).
  rewrite mul_spec, Hc in H. specialize (H eq_refl).
  rewrite <- Hc, <- mul_spec in H.
  split; [|split].
  - destruct (is_nan x) eqn:Ex.
    + apply is_nan_Prim2SF in Ex. apply is_nan_Prim2SF.
      rewrite Ex in H. destruct (Prim2SF (x * c)); cbn in *; tauto.
    + apply not_nan_Prim2SF in Ex. apply not_nan_Prim2SF. intros E.
      rewrite E in H. destruct (Prim2SF x); cbn in *; tauto.
  - rewrite !zero_leb_Prim2SF.
    destruct (Prim2SF x), (Prim2SF (x * c)); cbn in *; try tauto; congruence.
  - rewrite !leb_zero_Prim2SF.
    destruct (Prim2SF x), (Prim2SF (x * c)); cbn in *; try tauto; congruence.
Qed.

(** X4.  A conversion yields NaN exactly when its input is NaN, a result
    at least zero for an input at least zero, and a result at most zero
    for an input at most zero. *)
Theorem conversions_keep_sign :
  Forall (fun f : float -> float =>
            forall x : float,
              is_nan (f x) = is_nan x
              /\ ((0 <=? x) = true -> (0 <=? f x) = true)
              /\ ((x <=? 0) = true -> (f x <=? 0) = true))
         [KtsToMs; InHgTohPa; StatMileToKm; MbTohPa].
Proof.
  repeat (apply Forall_cons;
          [ intros x; unfold KtsToMs, InHgTohPa, StatMileToKm, MbTohPa;
            eapply mul_positive_const; vm_compute; reflexivity | ]).
  apply Forall_nil.
Qed.

(** 11 knots, and the four conversions of it. *)
Lemma conversions_keep_sign_witness :
  (0 <=? 11) = true
  /\ (0 <=? KtsToMs 11) = true /\ (0 <=? InHgTohPa 11) = true
  /\ (0 <=? StatMileToKm 11) = true /\ (0 <=? MbTohPa 11) = true.
Proof.
  pose proof (proj1 (Forall_forall _ _) conversions_keep_sign) as H.
  split; [reflexivity|].
  refine (conj _ (conj _ (conj _ _))).
  - apply (H KtsToMs); [simpl; tauto|reflexivity].
  - apply (H InHgTohPa); [simpl; tauto|reflexivity].
  - apply (H StatMileToKm); [simpl; tauto|reflexivity].
  - apply (H MbTohPa); [simpl; tauto|reflexivity].
Defined.

End ConversionSignFacts.

(* ================================================================== *)
(** ** metar.go: further properties of FetchCurrentStationWeather *)

Section FetchMore.

Variable Request : Type.
Variable http_NewRequest : string -> string -> Request * option error.
Variable Net : Type.
Variable xml_Decode : string -> response + error.

Local Abbreviation Fetch :=
  (FetchCurrentStationWeather Request http_NewRequest Net xml_Decode).
Local Abbreviation decoded_for :=
  (decoded Request http_NewRequest Net xml_Decode).
Local Abbreviation answer_for := (answer Request http_NewRequest Net).
Local Abbreviation request := (request_for Request http_NewRequest).

Local Open Scope string_scope.

(** X5.  Of the client's response the function reads the body and nothing
    else: two calls whose responses carry the same body come to the same
    result, whatever the status codes, the stations and the worlds. *)
Theorem Fetch_reads_body_only
    (s1 s2 : string) (w1 w2 : World Request Net) (res1 res2 : Response) :
  answer_for s1 w1 = Return (inl res1) ->
  answer_for s2 w2 = Return (inl res2) ->
  Body res1 = Body res2 ->
  fst (Fetch s1 w1) = fst (Fetch s2 w2).
Proof.
  intros H1 H2 Hb. rewrite !Fetch_unfold. cbn [fst].
  rewrite H1, H2, Hb. reflexivity.
Qed.

(** X6.  Calls do not share anything but the network: the package variable
    HTTPClient is left as it was, and two calls in a row hand the client
    two requests, in order, the second one answered by the network as the
    first left it, also when both ask for the same station. *)
Theorem Fetch_twice (s1 s2 : string) (w : World Request Net) :
  HTTPClient (snd (Fetch s1 w)) = HTTPClient w
  /\ net (snd (Fetch s1 w)) = snd (HTTPClient w (request s1) (net w))
  /\ sent (snd (Fetch s2 (snd (Fetch s1 w)))) =
     (sent w ++ [request s1; request s2])%list
  /\ answer_for s2 (snd (Fetch s1 w)) =
     fst (HTTPClient w (request s2)
            (snd (HTTPClient w (request s1) (net w)))).
Proof.
  rewrite !Fetch_unfold. cbn [snd HTTPClient net sent]. unfold answer.
  cbn [HTTPClient net].
  repeat split. rewrite <- app_assoc. reflexivity.
Qed.

(** X7.  With the envelope decoded, the shape of the sequence decides: a
    declared count other than the length gives the inconsistency error;
    otherwise an empty sequence gives the no-data error and a sequence
    with a first element gives that element.  So each of the three results
    tells which case the envelope was in. *)
Theorem Fetch_by_shape
    (station : string) (w : World Request Net) (r : response) :
  decoded_for station w = Some r ->
  fst (Fetch station w) =
    (if negb (NumResults (Data r) =? len (Results (Data r)))%Z then
       Return (None, Some (errors_New "Got inconsistent number of results"))
     else
       match Results (Data r) with
       | [] =>
           Return (None, Some (errors_New "Did not find any data for your station"))
       | first :: _ => Return (Some first, None)
       end)
  /\ (fst (Fetch station w) =
        Return (None, Some (errors_New "Got inconsistent number of results"))
      <-> NumResults (Data r) <> len (Results (Data r)))
  /\ (fst (Fetch station w) =
        Return (None, Some (errors_New "Did not find any data for your station"))
      <-> NumResults (Data r) = 0%Z /\ Results (Data r) = [])
  /\ (forall first,
        fst (Fetch station w) = Return (Some first, None)
        <-> NumResults (Data r) = len (Results (Data r)) /\
            exists rest, Results (Data r) = first :: rest).
Proof.
  intros Hd. apply decoded_Some in Hd. destruct Hd as (res & Ha & Hx).
  rewrite Fetch_unfold. cbn [fst]. rewrite Ha, Hx.
  destruct r as [name [n rs]]. cbn [Data NumResults Results].
  unfold len, index.
  destruct (Z.eqb_spec n (Z.of_nat (List.length rs))) as [E|E]; cbn [negb].
  - destruct rs as [|x rest]; cbn [List.length nth_error] in *.
    + subst n. cbn [Z.of_nat Z.eqb].
      split; [reflexivity|]. split; [split; [discriminate|congruence]|].
      split; [split; [now split|reflexivity]|].
      intros first. split; [discriminate|].
      intros [_ [rest H]]. discriminate.
    + destruct (Z.eqb_spec n 0) as [E0|E0]; [lia|].
      split; [reflexivity|]. split; [split; [discriminate|congruence]|].
      split; [split; [discriminate|intros [_ H]; discriminate]|].
      intros first. split.
      * intros [= ->]. split; [exact E|]. exists rest. reflexivity.
      * intros [_ [rest' [= -> _]]]. reflexivity.
  - split; [reflexivity|]. split; [split; [now intros _|reflexivity]|].
    split; [split; [discriminate|]|].
    + intros [H0 Hrs]. subst rs. cbn in E. contradiction.
    + intros first. split; [discriminate|]. intros [H _]. contradiction.
Qed.

End FetchMore.

Section FetchMoreExamples.
Local Open Scope string_scope.

(** The same body under status 200 and under status 404. *)
Lemma Fetch_reads_body_only_witness :
  fst (FetchCurrentStationWeather sample_Request sample_NewRequest unit
         (sample_decoder (inl (sample_envelope 1 [older])))
         "EDDH" (sample_world (inl sample_Response)))
  = fst (FetchCurrentStationWeather sample_Request sample_NewRequest unit
           (sample_decoder (inl (sample_envelope 1 [older])))
           "EDDF"
           (sample_world
              (inl {| StatusCode := 404; Body := Body sample_Response |}))).
Proof.
  apply (Fetch_reads_body_only sample_Request sample_NewRequest unit
           (sample_decoder (inl (sample_envelope 1 [older])))
           "EDDH" "EDDF"
           (sample_world (inl sample_Response))
           (sample_world
              (inl {| StatusCode := 404; Body := Body sample_Response |}))
           sample_Response
           {| StatusCode := 404; Body := Body sample_Response |});
    reflexivity.
Defined.

(** A count of zero that comes with an observation is an inconsistency,
    not missing data. *)
Lemma Fetch_by_shape_witness :
  decoded sample_Request sample_NewRequest unit
    (sample_decoder (inl (sample_envelope 0 [older])))
    "EDDH" (sample_world (inl sample_Response))
  = Some (sample_envelope 0 [older])
  /\ fst (FetchCurrentStationWeather sample_Request sample_NewRequest unit
            (sample_decoder (inl (sample_envelope 0 [older])))
            "EDDH" (sample_world (inl sample_Response)))
     = Return (None, Some (errors_New "Got inconsistent number of results")).
Proof.
  split; [reflexivity|].
  apply (proj1
           (Fetch_by_shape sample_Request sample_NewRequest unit
              (sample_decoder (inl (sample_envelope 0 [older])))
              "EDDH" (sample_world (inl sample_Response))
              (sample_envelope 0 [older]) eq_refl)).
Defined.

End FetchMoreExamples.

(* ================================================================== *)
(** ** metar.go: the request URL and the station *)

Section RequestURL.
Local Open Scope string_scope.

Lemma length_append (s t : string) :
  String.length (s ++ t) = (String.length s + String.length t)%nat.
Proof. induction s as [|a s IH]; simpl; [reflexivity|now rewrite IH]. Qed.

Lemma append_cancel_r (s1 s2 t : string) : s1 ++ t = s2 ++ t -> s1 = s2.
Proof.
  revert s2. induction s1 as [|a s1 IH]; intros [|b s2] H; simpl in H.
  - reflexivity.
  - apply (f_equal String.length) in H. simpl in H.
    rewrite length_append in H. lia.
  - apply (f_equal String.length) in H. simpl in H.
    rewrite length_append in H. lia.
  - injection H as -> H. f_equal. apply IH, H.
Qed.

Lemma append_cancel_l (p s1 s2 : string) : p ++ s1 = p ++ s2 -> s1 = s2.
Proof.
  induction p as [|a p IH]; simpl; intros H; [exact H|].
  injection H as H. apply IH, H.
Qed.

(** X8.  The URL tells the station: two station strings that give the same
    request URL are the same string. *)
Theorem request_URL_injective (s1 s2 : string) :
  fmt_Sprintf apiSource [s1] = fmt_Sprintf apiSource [s2] -> s1 = s2.
Proof.
  rewrite !Sprintf_apiSource. intros H.
  apply append_cancel_l in H. apply append_cancel_r in H. exact H.
Qed.

Lemma request_URL_injective_witness :
  fmt_Sprintf apiSource ["EDDH"] = fmt_Sprintf apiSource ["EDDH"]
  /\ "EDDH" = "EDDH".
Proof.
  split; [reflexivity|].
  apply (request_URL_injective "EDDH" "EDDH"). reflexivity.
Defined.

End RequestURL.
